(** * AddonModForumHelperProvider (src/addon/mod/forum/providers/helper.ts)

    A shallow embedding of the forum helper service and the properties of
    its offline-reply conversion, stored-file management, change detection,
    availability message and discussion lookup.

    Promises are modelled by their settlement: a promise of [A] is either
    resolved with a value or rejected with a reason.  The providers the
    helper receives through its constructor are Section variables. *)

From stdpp Require Import base option list numbers strings pretty gmap.
From Stdlib Require Import ZArith QArith.

Local Open Scope Z_scope.

(** ** Promises *)

(** Rejection reasons.  [Null] is the [null] of [Promise.reject(null)];
    the other two are the failures of the file store. *)
Inductive reason : Type :=
  | Null
  | NotFoundError
  | OtherError (msg : string).

Inductive promise (A : Type) : Type :=
  | Resolved (a : A)
  | Rejected (e : reason).

Arguments Resolved {A} a.
Arguments Rejected {A} e.

#[global] Instance reason_eq_dec : EqDecision reason.
Proof. solve_decision. Defined.

(** [p.then(f)], where [f] may itself return a promise. *)
#[global] Instance promise_bind : MBind promise := λ A B f p,
  match p with
  | Resolved a => f a
  | Rejected e => Rejected e
  end.

#[global] Instance promise_ret : MRet promise := λ A a, Resolved a.

#[global] Instance promise_fmap : FMap promise := λ A B f p,
  match p with
  | Resolved a => Resolved (f a)
  | Rejected e => Rejected e
  end.

(** [p.catch(h)]. *)
Definition catch {A} (p : promise A) (h : reason → promise A) : promise A :=
  match p with
  | Resolved a => Resolved a
  | Rejected e => h e
  end.

Definition is_resolved {A} (p : promise A) : bool :=
  match p with Resolved _ => true | Rejected _ => false end.

(** ** Data *)

(** "a list of files (either online files or local files)". *)
Inductive file : Type :=
  | OnlineFile (filename fileurl : string)
  | LocalFile (name : string).

#[global] Instance file_eq_dec : EqDecision file.
Proof. solve_decision. Defined.

(** [options.attachmentsid]: the online files and the number of files kept
    in the offline folder. *)
Module AttachmentsId.
Record t : Type := mk {
  online : option (list file);
  offline : option Z
}.
End AttachmentsId.

Module Options.
Record t : Type := mk {
  private : option bool;
  attachmentsid : option AttachmentsId.t
}.
End Options.

Module OfflineReply.
Record t : Type := mk {
  forumid : Z;
  discussionid : Z;
  postid : Z;
  subject : string;
  message : string;
  userid : Z;
  courseid : Z;
  timecreated : Z;
  options : option Options.t
}.
End OfflineReply.

Module User.
Record t : Type := mk {
  fullname : option string;
  profileimageurl : option string
}.
End User.

(** The online post built by the conversion.  A field that holds [false]
    in place of a number ([id], [modified]) and a property that has not
    been assigned ([userfullname], [userpictureurl], [attachment]) are
    [None]; [isprivatereply] is [None] when it holds [undefined]. *)
Module Reply.
Record t : Type := mk {
  attachments : list file;
  canreply : bool;
  children : list Z;
  created : Z;
  discussion : Z;
  id : option Z;
  mailed : Z;
  mailnow : Z;
  message : string;
  messageformat : Z;
  messagetrust : Z;
  modified : option Z;
  parent : Z;
  postread : bool;
  subject : string;
  totalscore : Z;
  userid : Z;
  isprivatereply : option bool;
  userfullname : option string;
  userpictureurl : option string;
  attachment : option Z
}.

Definition set_attachments (v : list file) (r : t) : t :=
  mk v (canreply r) (children r) (created r) (discussion r) (id r)
     (mailed r) (mailnow r) (message r) (messageformat r) (messagetrust r)
     (modified r) (parent r) (postread r) (subject r) (totalscore r)
     (userid r) (isprivatereply r) (userfullname r) (userpictureurl r)
     (attachment r).

Definition set_userfullname (v : option string) (r : t) : t :=
  mk (attachments r) (canreply r) (children r) (created r) (discussion r)
     (id r) (mailed r) (mailnow r) (message r) (messageformat r)
     (messagetrust r) (modified r) (parent r) (postread r) (subject r)
     (totalscore r) (userid r) (isprivatereply r) v (userpictureurl r)
     (attachment r).

Definition set_userpictureurl (v : option string) (r : t) : t :=
  mk (attachments r) (canreply r) (children r) (created r) (discussion r)
     (id r) (mailed r) (mailnow r) (message r) (messageformat r)
     (messagetrust r) (modified r) (parent r) (postread r) (subject r)
     (totalscore r) (userid r) (isprivatereply r) (userfullname r) v
     (attachment r).

Definition set_attachment (v : Z) (r : t) : t :=
  mk (attachments r) (canreply r) (children r) (created r) (discussion r)
     (id r) (mailed r) (mailnow r) (message r) (messageformat r)
     (messagetrust r) (modified r) (parent r) (postread r) (subject r)
     (totalscore r) (userid r) (isprivatereply r) (userfullname r)
     (userpictureurl r) (Some v).
End Reply.

(** Truthiness of a number that may be missing. *)
Definition truthy (n : option Z) : bool :=
  match n with
  | Some z => negb (z =? 0)
  | None => false
  end.

(** ** Promise.all over callbacks that mutate a shared object *)

(** An entry of the [promises] array, seen when it settles: it rejects, or
    its callback runs and mutates the [reply] object the closures share. *)
Definition subtask : Type := promise (Reply.t → Reply.t).

(** The two subtasks do not wait for one another; a schedule fixes which
    one settles first. *)
Inductive schedule : Type := AttachmentsFirst | ProfileFirst.

Definition settleOrder (s : schedule) (attachmentTasks : list subtask)
    (profileTask : subtask) : list subtask :=
  match s with
  | AttachmentsFirst => attachmentTasks ++ [profileTask]
  | ProfileFirst => profileTask :: attachmentTasks
  end.

(** [Promise.all(promises)]: the callbacks run in settlement order; the
    first rejection rejects the whole. *)
Fixpoint Promise_all (ts : list subtask) (reply : Reply.t) : promise Reply.t :=
  match ts with
  | [] => Resolved reply
  | Resolved f :: ts' => Promise_all ts' (f reply)
  | Rejected e :: _ => Rejected e
  end.

(** ** convertOfflineReplyToOnline, getReplyStoredFiles *)

Section Convert.
Variable getReplyFolder : Z → Z → option string → option Z → promise string.
Variable getStoredFiles : string → promise (list file).
Variable getProfile : Z → Z → bool → promise User.t.

Definition getReplyStoredFiles (forumId postId : Z) (siteId : option string)
    (userId : option Z) : promise (list file) :=
  folderPath ← getReplyFolder forumId postId siteId userId;
  getStoredFiles folderPath.

(** The skeleton assigned to [reply] before any promise is created. *)
Definition skeleton (offlineReply : OfflineReply.t) : Reply.t :=
  {| Reply.attachments := [];
     Reply.canreply := false;
     Reply.children := [];
     Reply.created := OfflineReply.timecreated offlineReply;
     Reply.discussion := OfflineReply.discussionid offlineReply;
     Reply.id := None;
     Reply.mailed := 0;
     Reply.mailnow := 0;
     Reply.message := OfflineReply.message offlineReply;
     Reply.messageformat := 1;
     Reply.messagetrust := 0;
     Reply.modified := None;
     Reply.parent := OfflineReply.postid offlineReply;
     Reply.postread := false;
     Reply.subject := OfflineReply.subject offlineReply;
     Reply.totalscore := 0;
     Reply.userid := OfflineReply.userid offlineReply;
     Reply.isprivatereply :=
       opts ← OfflineReply.options offlineReply; Options.private opts;
     Reply.userfullname := None;
     Reply.userpictureurl := None;
     Reply.attachment := None |}.

(** "Treat attachments if any": the synchronous assignment of the online
    files, and the stored-files promise pushed when there are offline
    ones. *)
Definition treatAttachments (offlineReply : OfflineReply.t)
    (siteId : option string) (reply : Reply.t) : Reply.t * list subtask :=
  match opts ← OfflineReply.options offlineReply; Options.attachmentsid opts with
  | Some att =>
      let reply := Reply.set_attachments (default [] (AttachmentsId.online att)) reply in
      if truthy (AttachmentsId.offline att) then
        (reply,
         [ (λ files reply,
              Reply.set_attachments (Reply.attachments reply ++ files) reply)
           <$> getReplyStoredFiles (OfflineReply.forumid offlineReply)
                 (Reply.parent reply) siteId (Some (Reply.userid reply)) ])
      else (reply, [])
  | None => (reply, [])
  end.

(** "Get user data", with its [catch] that ignores errors. *)
Definition profileTask (offlineReply : OfflineReply.t) : subtask :=
  catch
    ((λ user reply,
        Reply.set_userpictureurl (User.profileimageurl user)
          (Reply.set_userfullname (User.fullname user) reply))
     <$> getProfile (OfflineReply.userid offlineReply)
           (OfflineReply.courseid offlineReply) true)
    (λ _, Resolved id).

(** The guards of "Treat attachments if any", read on the input:
    [options && options.attachmentsid && options.attachmentsid.offline],
    and the value of [options.attachmentsid.online || []] when
    [attachmentsid] is there. *)
Definition hasOfflineAttachments (offlineReply : OfflineReply.t) : bool :=
  match opts ← OfflineReply.options offlineReply; Options.attachmentsid opts with
  | Some att => truthy (AttachmentsId.offline att)
  | None => false
  end.

Definition onlineAttachments (offlineReply : OfflineReply.t) : list file :=
  match opts ← OfflineReply.options offlineReply; Options.attachmentsid opts with
  | Some att => default [] (AttachmentsId.online att)
  | None => []
  end.

Definition convertOfflineReplyToOnline (s : schedule)
    (offlineReply : OfflineReply.t) (siteId : option string) : promise Reply.t :=
  let '(reply, promises) :=
    treatAttachments offlineReply siteId (skeleton offlineReply) in
  reply ← Promise_all (settleOrder s promises (profileTask offlineReply)) reply;
  mret (Reply.set_attachment
          (if 0 <? Z.of_nat (length (Reply.attachments reply)) then 1 else 0)
          reply).
End Convert.

(** ** deleteNewDiscussionStoredFiles, deleteReplyStoredFiles *)

(** [removeDir] changes the file store, so the two delete operations pass
    the store along: a run starts in a store and ends in one. *)
Section Delete.
Variable FS : Type.
Variable getNewDiscussionFolder : Z → Z → option string → promise string.
Variable getReplyFolder : Z → Z → option string → option Z → promise string.
Variable removeDir : string → FS → promise unit * FS.

(** [this.fileProvider.removeDir(folderPath).catch(() => {})]. *)
Definition removeDirIgnoringErrors (folderPath : string) (fs : FS)
    : promise unit * FS :=
  let '(r, fs') := removeDir folderPath fs in
  (catch r (λ _, Resolved ()), fs').

Definition deleteNewDiscussionStoredFiles (forumId timecreated : Z)
    (siteId : option string) (fs : FS) : promise unit * FS :=
  match getNewDiscussionFolder forumId timecreated siteId with
  | Resolved folderPath => removeDirIgnoringErrors folderPath fs
  | Rejected e => (Rejected e, fs)
  end.

Definition deleteReplyStoredFiles (forumId postId : Z)
    (siteId : option string) (userId : option Z) (fs : FS)
    : promise unit * FS :=
  match getReplyFolder forumId postId siteId userId with
  | Resolved folderPath => removeDirIgnoringErrors folderPath fs
  | Rejected e => (Rejected e, fs)
  end.
End Delete.

(** Modelled from the spec: the file store behind [removeDir], which is not
    part of this file ("removeDir(path) -> success | NotFoundError |
    OtherError", and "substitute a mapping-based in-memory store for
    tests").  A store is the set of existing folders and a flag telling
    whether it accepts modifications. *)
Module MemStore.
Record t : Type := mk {
  folders : gset string;
  writable : bool
}.

Definition removeDir (path : string) (fs : t) : promise unit * t :=
  if bool_decide (path ∈ folders fs) then
    if writable fs then (Resolved (), mk (folders fs ∖ {[path]}) true)
    else (Rejected (OtherError "NO_MODIFICATION_ALLOWED_ERR"), fs)
  else (Rejected NotFoundError, fs).

(** Modelled from the spec: folder naming, "purely a function of these
    fields"; the forum offline provider is not part of this file. *)
Definition getNewDiscussionFolder (forumId timecreated : Z)
    (siteId : option string) : promise string :=
  Resolved ("offline/" +:+ default "current" siteId +:+ "/forum/"
            +:+ pretty forumId +:+ "/newdisc_" +:+ pretty timecreated).

Definition getReplyFolder (forumId postId : Z) (siteId : option string)
    (userId : option Z) : promise string :=
  Resolved ("offline/" +:+ default "current" siteId +:+ "/forum/"
            +:+ pretty forumId +:+ "/reply_" +:+ pretty postId
            +:+ "_" +:+ pretty (default 0 userId)).
End MemStore.

(** ** getAvailabilityMessage, isCutoffDateReached, isDueDateReached *)

Module Forum.
Record t : Type := mk {
  id : Z;
  cutoffdate : Z;
  duedate : Z
}.
End Forum.

Definition Qltb (x y : Q) : bool := negb (Qle_bool y x).

(** [Date.now() / 1000], from a clock reading in milliseconds; the
    quotient is taken exactly. *)
Definition nowOf (DateNow : Z) : Q := DateNow # 1000.

(** The value of an arithmetic operation on numbers: a double that holds
    an integer, or an infinity. *)
Inductive number : Type :=
  | Finite (z : Z)
  | PlusInfinity
  | MinusInfinity.

(** Rounding of an integer to the nearest double, ties to the even
    significand: below [2^53] every integer is a double; from there on the
    doubles are the multiples of [2^(e-52)] for [2^e <= |z| < 2^(e+1)];
    what rounds to [2^1024] or more is an infinity. *)
Definition roundToDouble (z : Z) : number :=
  let a := Z.abs z in
  if a <? 2 ^ 53 then Finite z
  else
    let e := Z.log2 a in
    let ulp := 2 ^ (e - 52) in
    let q := a / ulp in
    let r := a mod ulp in
    let q' := if (ulp <? 2 * r) || ((2 * r =? ulp) && Z.odd q)
              then q + 1 else q in
    let m := q' * ulp in
    if 2 ^ 1024 <=? m then (if 0 <? z then PlusInfinity else MinusInfinity)
    else Finite (Z.sgn z * m).

(** [x * y] on two numbers that hold integers. *)
Definition mulNumber (x y : Z) : number := roundToDouble (x * y).

Section Availability.
(** [this.translate.instant(key, {$a: param})] and
    [this.timeUtils.userDate(millis)]. *)
Variable instant : string → option string → string.
Variable userDate : number → string.

Definition isCutoffDateReached (DateNow : Z) (forum : Forum.t) : bool :=
  let now := nowOf DateNow in
  (0 <? Forum.cutoffdate forum) && Qltb (inject_Z (Forum.cutoffdate forum)) now.

Definition isDueDateReached (DateNow : Z) (forum : Forum.t) : bool :=
  let now := nowOf DateNow in
  (0 <? Forum.duedate forum) && Qltb (inject_Z (Forum.duedate forum)) now.

(** The clock is read once by each of the two checks: [DateNow1] is the
    reading of [isCutoffDateReached], [DateNow2] that of
    [isDueDateReached]. *)
Definition getAvailabilityMessage (DateNow1 DateNow2 : Z) (forum : Forum.t)
    : option string :=
  if isCutoffDateReached DateNow1 forum then
    Some (instant "addon.mod_forum.cutoffdatereached" None)
  else if isDueDateReached DateNow2 forum then
    let dueDate := userDate (mulNumber (Forum.duedate forum) 1000) in
    Some (instant "addon.mod_forum.thisforumisdue" (Some dueDate))
  else if 0 <? Forum.duedate forum then
    let dueDate := userDate (mulNumber (Forum.duedate forum) 1000) in
    Some (instant "addon.mod_forum.thisforumhasduedate" (Some dueDate))
  else None.
End Availability.

(** ** getDiscussionById *)

Module Discussion.
Record t : Type := mk {
  id : Z;
  name : string
}.
End Discussion.

Module Response.
Record t : Type := mk {
  discussions : option (list Discussion.t);
  canLoadMore : bool
}.
End Response.

Section Locate.
Variable getCurrentSiteId : string.
(** [getDiscussions(forumId, sortOrder, page, forceCache, siteId)]. *)
Variable getDiscussions :
  Z → option Z → Z → bool → string → promise Response.t.

(** [siteId || this.sitesProvider.getCurrentSiteId()]: an empty string is
    falsy too. *)
Definition siteIdOrCurrent (siteId : option string) : string :=
  match siteId with
  | Some s => if bool_decide (s = "") then getCurrentSiteId else s
  | None => getCurrentSiteId
  end.

(** [response.discussions.find((discussion) => discussion.id == discussionId)]. *)
Definition findInPage (discussionId : Z) (l : list Discussion.t)
    : option Discussion.t :=
  List.find (λ discussion, Discussion.id discussion =? discussionId) l.

(** The recursive closure [findDiscussion].  The recursion follows the
    pages the server announces, so it takes fuel: [None] means the fuel
    ran out.  The result comes with the pages requested, in order. *)
Fixpoint findDiscussion (fuel : nat) (forumId discussionId : Z)
    (siteId : string) (page : Z) : option (list Z * promise Discussion.t) :=
  match fuel with
  | O => None
  | S fuel =>
      match getDiscussions forumId None page false siteId with
      | Rejected e => Some ([page], Rejected e)
      | Resolved response =>
          match Response.discussions response with
          | Some ((_ :: _) as discussions) =>
              match findInPage discussionId discussions with
              | Some discussion => Some ([page], Resolved discussion)
              | None =>
                  if Response.canLoadMore response then
                    '(pages, r) ← findDiscussion fuel forumId discussionId
                                     siteId (page + 1);
                    Some (page :: pages, r)
                  else Some ([page], Rejected Null)
              end
          | _ => Some ([page], Rejected Null)
          end
      end
  end.

(** The pages [page], [page + 1], ..., [n] of them. *)
Fixpoint pagesFrom (page : Z) (n : nat) : list Z :=
  match n with
  | O => []
  | S n => page :: pagesFrom (page + 1) n
  end.

Definition getDiscussionById (fuel : nat) (forumId discussionId : Z)
    (siteId : option string) : option (list Z * promise Discussion.t) :=
  let siteId := siteIdOrCurrent siteId in
  findDiscussion fuel forumId discussionId siteId 0.
End Locate.

(** ** hasPostDataChanged *)

(** The data of a post being edited.  [None] is a field that holds [null]
    or [undefined], which [==] and [!=] do not tell apart. *)
Module PostData.
Record t : Type := mk {
  subject : option string;
  message : option string;
  isprivatereply : option bool;
  files : list file
}.
End PostData.

Section Changes.
Variable areFileListDifferent : list file → list file → bool.

Definition hasPostDataChanged (post : PostData.t)
    (original : option PostData.t) : bool :=
  match original with
  | None => false
  | Some original =>
      if bool_decide (PostData.subject original = None) then false
      else if negb (bool_decide (PostData.subject post = PostData.subject original))
              || negb (bool_decide (PostData.message post = PostData.message original))
      then true
      else if negb (bool_decide (PostData.isprivatereply post
                                 = PostData.isprivatereply original))
      then true
      else areFileListDifferent (PostData.files post) (PostData.files original)
  end.
End Changes.

(** ** storeNewDiscussionFiles, storeReplyFiles, uploadOrStore...Files *)

Section Router.
(** [AddonModForumProvider.COMPONENT]. *)
Variable COMPONENT : string.
(** What the uploader's promises resolve with. *)
Variable result : Type.
Variable getNewDiscussionFolder : Z → Z → option string → promise string.
Variable getReplyFolder : Z → Z → option string → option Z → promise string.
Variable storeFilesToUpload : string → list file → promise result.
Variable uploadOrReuploadFiles :
  list file → string → Z → option string → promise result.

Definition storeNewDiscussionFiles (forumId timecreated : Z)
    (files : list file) (siteId : option string) : promise result :=
  folderPath ← getNewDiscussionFolder forumId timecreated siteId;
  storeFilesToUpload folderPath files.

Definition storeReplyFiles (forumId postId : Z) (files : list file)
    (siteId : option string) (userId : option Z) : promise result :=
  folderPath ← getReplyFolder forumId postId siteId userId;
  storeFilesToUpload folderPath files.

Definition uploadOrStoreNewDiscussionFiles (forumId timecreated : Z)
    (files : list file) (offline : bool) (siteId : option string)
    : promise result :=
  if offline then storeNewDiscussionFiles forumId timecreated files siteId
  else uploadOrReuploadFiles files COMPONENT forumId siteId.

Definition uploadOrStoreReplyFiles (forumId postId : Z) (files : list file)
    (offline : bool) (siteId : option string) (userId : option Z)
    : promise result :=
  if offline then storeReplyFiles forumId postId files siteId userId
  else uploadOrReuploadFiles files COMPONENT forumId siteId.
End Router.

(** ** getNewDiscussionStoredFiles *)

Section StoredFiles.
Variable getNewDiscussionFolder : Z → Z → option string → promise string.
Variable getStoredFiles : string → promise (list file).

Definition getNewDiscussionStoredFiles (forumId timecreated : Z)
    (siteId : option string) : promise (list file) :=
  folderPath ← getNewDiscussionFolder forumId timecreated siteId;
  getStoredFiles folderPath.
End StoredFiles.

(** ** Sample data and collaborators *)

Module Sample.
Definition remote0 : file := OnlineFile "notes.pdf" "https://campus.example/f/notes.pdf".
Definition remote1 : file := OnlineFile "plan.odt" "https://campus.example/f/plan.odt".
Definition local0 : file := LocalFile "photo.jpg".

Definition draftAttachments : AttachmentsId.t :=
  {| AttachmentsId.online := Some [remote0; remote1];
     AttachmentsId.offline := Some 1 |}.

Definition draftOptions : Options.t :=
  {| Options.private := Some true;
     Options.attachmentsid := Some draftAttachments |}.

Definition draft : OfflineReply.t :=
  {| OfflineReply.forumid := 3;
     OfflineReply.discussionid := 11;
     OfflineReply.postid := 42;
     OfflineReply.subject := "Re: exam dates";
     OfflineReply.message := "See the attached files.";
     OfflineReply.userid := 7;
     OfflineReply.courseid := 2;
     OfflineReply.timecreated := 1500000000;
     OfflineReply.options := Some draftOptions |}.

Definition draftNoOptions : OfflineReply.t :=
  {| OfflineReply.forumid := 3;
     OfflineReply.discussionid := 11;
     OfflineReply.postid := 42;
     OfflineReply.subject := "Re: exam dates";
     OfflineReply.message := "Thanks.";
     OfflineReply.userid := 7;
     OfflineReply.courseid := 2;
     OfflineReply.timecreated := 1500000000;
     OfflineReply.options := None |}.

Definition getStoredFiles (folderPath : string) : promise (list file) :=
  Resolved [local0].

Definition getStoredFilesFailing (folderPath : string) : promise (list file) :=
  Rejected (OtherError "cannot read the folder").

Definition getProfile (userId courseId : Z) (cached : bool) : promise User.t :=
  Resolved {| User.fullname := Some "Ada Lovelace";
              User.profileimageurl := Some "https://campus.example/u/7.png" |}.

Definition getProfileFailing (userId courseId : Z) (cached : bool)
    : promise User.t :=
  Rejected (OtherError "no connection").

(** A store that holds the folder of the new discussion of forum 3
    created at 1500000000. *)
Definition newDiscussionPath : string :=
  "offline/current/forum/3/newdisc_1500000000".

(** Three pages of two discussions each; discussion 25 is on page 2. *)
Definition getDiscussions (forumId : Z) (sortOrder : option Z) (page : Z)
    (forceCache : bool) (siteId : string) : promise Response.t :=
  if page =? 0 then
    Resolved (Response.mk (Some [Discussion.mk 11 "Welcome"; Discussion.mk 12 "Rules"]) true)
  else if page =? 1 then
    Resolved (Response.mk (Some [Discussion.mk 17 "Exam"; Discussion.mk 18 "Slides"]) true)
  else if page =? 2 then
    Resolved (Response.mk (Some [Discussion.mk 24 "Marks"; Discussion.mk 25 "Party"]) false)
  else Resolved (Response.mk (Some []) false).

Definition instant (key : string) (param : option string) : string :=
  match param with
  | Some a => key +:+ " " +:+ a
  | None => key
  end.

Definition userDate (millis : number) : string :=
  match millis with
  | Finite ms => pretty (ms / 1000)
  | PlusInfinity | MinusInfinity => "Invalid date"
  end.

(** A server whose first page is empty and yet announces more; discussion
    25 is on the page after it. *)
Definition getDiscussionsEmptyFirst (forumId : Z) (sortOrder : option Z)
    (page : Z) (forceCache : bool) (siteId : string) : promise Response.t :=
  if page =? 0 then Resolved (Response.mk (Some []) true)
  else Resolved (Response.mk (Some [Discussion.mk 25 "Party"]) false).

Definition areFileListDifferent (a b : list file) : bool :=
  negb (bool_decide (a ⊆ b ∧ b ⊆ a)).

Definition original : PostData.t :=
  PostData.mk (Some "Exam dates") (Some "When is it?") (Some false) [remote0].

(** A draft whose attachments are all online: the count of offline files
    is 0. *)
Definition draftOnlineOnly : OfflineReply.t :=
  {| OfflineReply.forumid := 3;
     OfflineReply.discussionid := 11;
     OfflineReply.postid := 42;
     OfflineReply.subject := "Re: exam dates";
     OfflineReply.message := "One file, already uploaded.";
     OfflineReply.userid := 7;
     OfflineReply.courseid := 2;
     OfflineReply.timecreated := 1500000000;
     OfflineReply.options :=
       Some {| Options.private := None;
               Options.attachmentsid :=
                 Some {| AttachmentsId.online := Some [remote0];
                         AttachmentsId.offline := Some 0 |} |} |}.

(** A server whose pages always hold one discussion and announce more. *)
Definition getDiscussionsEndless (forumId : Z) (sortOrder : option Z)
    (page : Z) (forceCache : bool) (siteId : string) : promise Response.t :=
  Resolved (Response.mk (Some [Discussion.mk (100 + page) "Again"]) true).

(** A server that fails on page 1. *)
Definition getDiscussionsFailing (forumId : Z) (sortOrder : option Z)
    (page : Z) (forceCache : bool) (siteId : string) : promise Response.t :=
  if page =? 0 then
    Resolved (Response.mk (Some [Discussion.mk 11 "Welcome"]) true)
  else Rejected (OtherError "no connection").

Definition store1 : MemStore.t := MemStore.mk {[ newDiscussionPath ]} true.
Definition storeReadOnly : MemStore.t := MemStore.mk {[ newDiscussionPath ]} false.
End Sample.

(** * Properties *)

(** ** Offline reply conversion *)

Section ConvertProperties.
Variable getReplyFolder : Z → Z → option string → option Z → promise string.
Variable getStoredFiles : string → promise (list file).
Variable getProfile : Z → Z → bool → promise User.t.

Local Abbreviation convert := (convertOfflineReplyToOnline getReplyFolder getStoredFiles getProfile).
Local Abbreviation storedFiles o siteId :=
  (getReplyStoredFiles getReplyFolder getStoredFiles (OfflineReply.forumid o)
     (OfflineReply.postid o) siteId (Some (OfflineReply.userid o))).

(** The profile subtask never rejects. *)
Lemma profileTask_resolved (o : OfflineReply.t) :
  ∃ f, profileTask getProfile o = Resolved f
       ∧ ∀ r, Reply.attachments (f r) = Reply.attachments r.
Proof.
  unfold profileTask.
  destruct (getProfile _ _ _) as [u|e]; simpl; eauto.
Qed.

(** Without offline attachments no stored-files promise is pushed. *)
Lemma treatAttachments_online_only (o : OfflineReply.t) siteId r :
  hasOfflineAttachments o = false →
  treatAttachments getReplyFolder getStoredFiles o siteId r
  = (match opts ← OfflineReply.options o; Options.attachmentsid opts with
     | Some _ => Reply.set_attachments (onlineAttachments o) r
     | None => r
     end, []).
Proof.
  unfold hasOfflineAttachments, onlineAttachments, treatAttachments.
  destruct (_ ← OfflineReply.options o; _) as [att|]; [|done].
  by intros ->.
Qed.

(** With offline attachments exactly one is, for the reply folder. *)
Lemma treatAttachments_offline (o : OfflineReply.t) siteId r :
  hasOfflineAttachments o = true →
  Reply.parent r = OfflineReply.postid o →
  Reply.userid r = OfflineReply.userid o →
  treatAttachments getReplyFolder getStoredFiles o siteId r
  = (Reply.set_attachments (onlineAttachments o) r,
     [ (λ files reply,
          Reply.set_attachments (Reply.attachments reply ++ files) reply)
       <$> storedFiles o siteId ]).
Proof.
  unfold hasOfflineAttachments, onlineAttachments, treatAttachments.
  destruct (_ ← OfflineReply.options o; _) as [att|]; [|done].
  intros -> Hp Hu. simpl. by rewrite Hp, Hu.
Qed.
(** The whole conversion, by the outcome of the stored-files subtask: the
    schedule and the outcome of the profile subtask decide neither whether
    it resolves nor the attachments of the post. *)
Lemma convert_outcome s (o : OfflineReply.t) siteId :
  match (if hasOfflineAttachments o then storedFiles o siteId else Resolved []) with
  | Resolved files =>
      ∃ post, convert s o siteId = Resolved post
              ∧ Reply.attachments post = onlineAttachments o ++ files
              ∧ Reply.attachment post
                = Some (if 0 <? Z.of_nat (length (onlineAttachments o ++ files))
                        then 1 else 0)
              ∧ Reply.isprivatereply post
                = (opts ← OfflineReply.options o; Options.private opts)
              ∧ Reply.userfullname post
                = (match getProfile (OfflineReply.userid o) (OfflineReply.courseid o) true with
                   | Resolved user => User.fullname user
                   | Rejected _ => None
                   end)
              ∧ Reply.userpictureurl post
                = (match getProfile (OfflineReply.userid o) (OfflineReply.courseid o) true with
                   | Resolved user => User.profileimageurl user
                   | Rejected _ => None
                   end)
  | Rejected e => convert s o siteId = Rejected e
  end.
Proof.
  unfold convertOfflineReplyToOnline.
  destruct (hasOfflineAttachments o) eqn:Hoff.
  - rewrite treatAttachments_offline by done.
    unfold profileTask.
    destruct (storedFiles o siteId) as [files|e],
      (getProfile _ _ _) as [u|e'], s; simpl; eauto 10.
  - rewrite treatAttachments_online_only by done.
    rewrite app_nil_r. unfold profileTask, onlineAttachments.
    destruct (_ ← OfflineReply.options o; _) as [att|],
      (getProfile _ _ _) as [u|e'], s; simpl; eauto 10.
Qed.

(** C3: a rejection of the user-profile collaborator is swallowed.  When
    [getProfile] rejects, the conversion still resolves as soon as the
    stored-files listing does not reject (or is not issued), and the post
    has [userfullname] and [userpictureurl] unset; and whenever the
    conversion rejects, its reason is that of the stored-files listing of a
    draft with offline attachments, never the one of the profile. *)
Theorem convert_swallows_profile_failure s (o : OfflineReply.t) siteId e :
  getProfile (OfflineReply.userid o) (OfflineReply.courseid o) true = Rejected e →
  ((hasOfflineAttachments o = true → is_resolved (storedFiles o siteId) = true) →
   ∃ post, convert s o siteId = Resolved post
           ∧ Reply.userfullname post = None
           ∧ Reply.userpictureurl post = None)
  ∧ (∀ e', convert s o siteId = Rejected e' →
       hasOfflineAttachments o = true ∧ storedFiles o siteId = Rejected e').
Proof.
  intros Hp. pose proof (convert_outcome s o siteId) as H.
  rewrite Hp in H. split.
  - intros Hres. destruct (hasOfflineAttachments o).
    + specialize (Hres eq_refl).
      destruct (storedFiles o siteId) as [files|e0]; [|done].
      destruct H as (post & -> & _ & _ & _ & Hn & Hu). eauto.
    + destruct H as (post & -> & _ & _ & _ & Hn & Hu). eauto.
  - intros e' He'. destruct (hasOfflineAttachments o).
    + destruct (storedFiles o siteId) as [files|e0].
      * destruct H as (post & Hc & _). congruence.
      * split; [done|congruence].
    + destruct H as (post & Hc & _). congruence.
Qed.

(** C4: for a draft whose attachments mark offline files, a rejection of
    the stored-files listing of the reply folder (forum id, parent post id,
    site id, user id) rejects the whole conversion, with the same reason. *)
Theorem convert_fails_on_listing_failure s (o : OfflineReply.t) siteId e :
  hasOfflineAttachments o = true →
  storedFiles o siteId = Rejected e →
  convert s o siteId = Rejected e.
Proof.
  intros Hoff Hl. pose proof (convert_outcome s o siteId) as H.
  by rewrite Hoff, Hl in H.
Qed.

(** C5: in every successful conversion the attachments of the post are the
    merged list, the online files of the draft followed by the files the
    stored-files listing resolved with (none when the draft marks no
    offline attachment), and the [attachment] flag is computed from that
    list once both subtasks have settled: 1 exactly when the merged list is
    not empty, 0 exactly when it is empty.  The draft has no say in the
    flag beyond the files it brings. *)
Theorem convert_attachment_flag s (o : OfflineReply.t) siteId post :
  convert s o siteId = Resolved post →
  ∃ files,
    (if hasOfflineAttachments o then storedFiles o siteId else Resolved [])
    = Resolved files
    ∧ Reply.attachments post = onlineAttachments o ++ files
    ∧ (Reply.attachment post = Some 1 ↔ onlineAttachments o ++ files ≠ [])
    ∧ (Reply.attachment post = Some 0 ↔ onlineAttachments o ++ files = [])
    ∧ Reply.attachment post
      = Some (if 0 <? Z.of_nat (length (Reply.attachments post)) then 1 else 0).
Proof.
  intros Hc. pose proof (convert_outcome s o siteId) as H.
  destruct (if hasOfflineAttachments o then _ else _) as [files|e];
    [|congruence].
  destruct H as (post' & Hc' & Ha & Hf & _).
  assert (post' = post) as -> by congruence.
  exists files. rewrite Hf, Ha. split; [done|]. split; [done|].
  destruct (onlineAttachments o ++ files) as [|x l]; simpl; naive_solver.
Qed.

(** C6: with remote files [remote] and stored local files [local], the
    attachments of the post are the remote ones followed by the local
    ones, each in its own order. *)
Theorem convert_merge_order s (o : OfflineReply.t) siteId opts att remote local :
  OfflineReply.options o = Some opts →
  Options.attachmentsid opts = Some att →
  AttachmentsId.online att = Some remote →
  truthy (AttachmentsId.offline att) = true →
  storedFiles o siteId = Resolved local →
  ∃ post, convert s o siteId = Resolved post
          ∧ Reply.attachments post = remote ++ local.
Proof.
  intros Ho Ha Hon Hoff Hl. pose proof (convert_outcome s o siteId) as H.
  unfold hasOfflineAttachments, onlineAttachments in H.
  rewrite Ho in H. simpl in H. rewrite Ha, Hoff, Hl, Hon in H. simpl in H.
  destruct H as (post & Hc & Hatt & _). eauto.
Qed.

(** C10: for an offline reply without [options] the conversion resolves,
    whatever the profile subtask does: no stored-files promise is created,
    the post has no attachments, its [attachment] flag is 0, and its
    [isprivatereply] is left undefined, which is not the boolean [false]. *)
Theorem convert_without_options s (o : OfflineReply.t) siteId :
  OfflineReply.options o = None →
  treatAttachments getReplyFolder getStoredFiles o siteId (skeleton o)
  = (skeleton o, [])
  ∧ ∃ post, convert s o siteId = Resolved post
            ∧ Reply.attachments post = []
            ∧ Reply.attachment post = Some 0
            ∧ Reply.isprivatereply post = None
            ∧ Reply.isprivatereply post ≠ Some false.
Proof.
  intros Ho. split.
  - unfold treatAttachments. by rewrite Ho.
  - pose proof (convert_outcome s o siteId) as H.
    unfold hasOfflineAttachments, onlineAttachments in H.
    rewrite Ho in H. simpl in H.
    destruct H as (post & Hc & Hatt & Hf & Hp & _).
    exists post. rewrite Hp. done.
Qed.
End ConvertProperties.

Lemma convert_swallows_profile_failure_witness :
  (∃ post,
     convertOfflineReplyToOnline MemStore.getReplyFolder Sample.getStoredFiles
       Sample.getProfileFailing ProfileFirst Sample.draft None = Resolved post
     ∧ Reply.userfullname post = None
     ∧ Reply.userpictureurl post = None).
Proof.
  apply (convert_swallows_profile_failure MemStore.getReplyFolder
           Sample.getStoredFiles Sample.getProfileFailing ProfileFirst
           Sample.draft None (OtherError "no connection")); reflexivity.
Defined.

Lemma convert_fails_on_listing_failure_witness :
  convertOfflineReplyToOnline MemStore.getReplyFolder
    Sample.getStoredFilesFailing Sample.getProfile AttachmentsFirst
    Sample.draft None
  = Rejected (OtherError "cannot read the folder").
Proof.
  apply (convert_fails_on_listing_failure MemStore.getReplyFolder
           Sample.getStoredFilesFailing Sample.getProfile AttachmentsFirst
           Sample.draft None); reflexivity.
Defined.

Lemma convert_attachment_flag_witness :
  (* two online files and one stored file: three attachments, flag 1 *)
  (∃ post,
     convertOfflineReplyToOnline MemStore.getReplyFolder Sample.getStoredFiles
       Sample.getProfile AttachmentsFirst Sample.draft None = Resolved post
     ∧ Reply.attachments post
       = [Sample.remote0; Sample.remote1; Sample.local0]
     ∧ Reply.attachment post = Some 1)
  (* no options: no attachment, flag 0 *)
  ∧ (∃ post,
       convertOfflineReplyToOnline MemStore.getReplyFolder Sample.getStoredFiles
         Sample.getProfile ProfileFirst Sample.draftNoOptions None = Resolved post
       ∧ Reply.attachments post = []
       ∧ Reply.attachment post = Some 0).
Proof.
  split.
  - eexists. split; [reflexivity|].
    destruct (convert_attachment_flag MemStore.getReplyFolder
                Sample.getStoredFiles Sample.getProfile AttachmentsFirst
                Sample.draft None _ eq_refl)
      as (files & Hl & Ha & H1 & _).
    injection Hl as <-. split; [exact Ha|].
    apply H1. discriminate.
  - eexists. split; [reflexivity|].
    destruct (convert_attachment_flag MemStore.getReplyFolder
                Sample.getStoredFiles Sample.getProfile ProfileFirst
                Sample.draftNoOptions None _ eq_refl)
      as (files & Hl & Ha & _ & H0 & _).
    injection Hl as <-. split; [exact Ha|].
    apply H0. reflexivity.
Defined.

Lemma convert_merge_order_witness :
  ∃ post,
    convertOfflineReplyToOnline MemStore.getReplyFolder Sample.getStoredFiles
      Sample.getProfile ProfileFirst Sample.draft None = Resolved post
    ∧ Reply.attachments post = [Sample.remote0; Sample.remote1; Sample.local0].
Proof.
  apply (convert_merge_order MemStore.getReplyFolder Sample.getStoredFiles
           Sample.getProfile ProfileFirst Sample.draft None
           Sample.draftOptions Sample.draftAttachments
           [Sample.remote0; Sample.remote1] [Sample.local0]);
    reflexivity.
Defined.

Lemma convert_without_options_witness :
  ∃ post,
    convertOfflineReplyToOnline MemStore.getReplyFolder
      Sample.getStoredFilesFailing Sample.getProfileFailing AttachmentsFirst
      Sample.draftNoOptions None = Resolved post
    ∧ Reply.attachments post = []
    ∧ Reply.attachment post = Some 0
    ∧ Reply.isprivatereply post = None
    ∧ Reply.isprivatereply post ≠ Some false.
Proof.
  apply (convert_without_options MemStore.getReplyFolder
           Sample.getStoredFilesFailing Sample.getProfileFailing
           AttachmentsFirst Sample.draftNoOptions None).
  reflexivity.
Defined.

(** ** Deleting stored files *)

Section DeleteProperties.
Variable FS : Type.
Variable getNewDiscussionFolder : Z → Z → option string → promise string.
Variable getReplyFolder : Z → Z → option string → option Z → promise string.
Variable removeDir : string → FS → promise unit * FS.

Local Abbreviation deleteNew :=
  (deleteNewDiscussionStoredFiles FS getNewDiscussionFolder removeDir).
Local Abbreviation deleteReply :=
  (deleteReplyStoredFiles FS getReplyFolder removeDir).

(** Whatever [removeDir] does, ignoring its errors resolves, and leaves the
    store as [removeDir] left it. *)
Lemma removeDirIgnoringErrors_resolves folderPath fs :
  removeDirIgnoringErrors FS removeDir folderPath fs
  = (Resolved (), (removeDir folderPath fs).2).
Proof.
  unfold removeDirIgnoringErrors.
  destruct (removeDir folderPath fs) as [[[]|e] fs']; reflexivity.
Qed.

(** C1, as the code has it: once the folder path is known, deleting the
    stored files of a new discussion or of a reply resolves whatever
    [removeDir] does: when the folder does not exist, so that deleting the
    same key twice resolves both times, and on every other failure of
    [removeDir] too, none of which reaches the caller. *)
Theorem delete_stored_files_ignore_removeDir_failures
    forumId timecreated postId siteId userId pathNew pathReply fs :
  getNewDiscussionFolder forumId timecreated siteId = Resolved pathNew →
  getReplyFolder forumId postId siteId userId = Resolved pathReply →
  (deleteNew forumId timecreated siteId fs
   = (Resolved (), (removeDir pathNew fs).2)
   ∧ (deleteNew forumId timecreated siteId
        (deleteNew forumId timecreated siteId fs).2).1 = Resolved ())
  ∧ (deleteReply forumId postId siteId userId fs
     = (Resolved (), (removeDir pathReply fs).2)
     ∧ (deleteReply forumId postId siteId userId
          (deleteReply forumId postId siteId userId fs).2).1 = Resolved ()).
Proof.
  intros Hn Hr.
  unfold deleteNewDiscussionStoredFiles, deleteReplyStoredFiles.
  rewrite Hn, Hr, !removeDirIgnoringErrors_resolves. done.
Qed.
End DeleteProperties.

Lemma delete_stored_files_ignore_removeDir_failures_witness :
  (* the folder exists: the first delete removes it, the second one meets
     a store without it *)
  deleteNewDiscussionStoredFiles MemStore.t MemStore.getNewDiscussionFolder
    MemStore.removeDir 3 1500000000 None Sample.store1
  = (Resolved (), (MemStore.removeDir Sample.newDiscussionPath Sample.store1).2)
  ∧ (deleteNewDiscussionStoredFiles MemStore.t MemStore.getNewDiscussionFolder
       MemStore.removeDir 3 1500000000 None
       (deleteNewDiscussionStoredFiles MemStore.t MemStore.getNewDiscussionFolder
          MemStore.removeDir 3 1500000000 None Sample.store1).2).1
    = Resolved ().
Proof.
  apply (delete_stored_files_ignore_removeDir_failures MemStore.t
           MemStore.getNewDiscussionFolder MemStore.getReplyFolder
           MemStore.removeDir 3 1500000000 42 None (Some 7)
           Sample.newDiscussionPath
           "offline/current/forum/3/reply_42_7" Sample.store1);
    vm_compute; reflexivity.
Defined.

(** C1, as stated, fails: in a store that refuses modifications [removeDir]
    rejects with a failure that is not "folder does not exist", and the
    delete operation resolves instead of rejecting with it. *)
Lemma delete_does_not_propagate_other_failures :
  MemStore.getNewDiscussionFolder 3 1500000000 None
  = Resolved Sample.newDiscussionPath
  ∧ MemStore.removeDir Sample.newDiscussionPath Sample.storeReadOnly
    = (Rejected (OtherError "NO_MODIFICATION_ALLOWED_ERR"), Sample.storeReadOnly)
  ∧ OtherError "NO_MODIFICATION_ALLOWED_ERR" ≠ NotFoundError
  ∧ (deleteNewDiscussionStoredFiles MemStore.t MemStore.getNewDiscussionFolder
       MemStore.removeDir 3 1500000000 None Sample.storeReadOnly).1
    = Resolved ()
  ∧ (deleteNewDiscussionStoredFiles MemStore.t MemStore.getNewDiscussionFolder
       MemStore.removeDir 3 1500000000 None Sample.storeReadOnly).1
    ≠ Rejected (OtherError "NO_MODIFICATION_ALLOWED_ERR").
Proof.
  repeat split; try (vm_compute; reflexivity); vm_compute; discriminate.
Qed.

(** The second delete of the witness above finds the folder gone. *)
Example second_delete_meets_missing_folder :
  MemStore.removeDir Sample.newDiscussionPath
    (deleteNewDiscussionStoredFiles MemStore.t MemStore.getNewDiscussionFolder
       MemStore.removeDir 3 1500000000 None Sample.store1).2
  = (Rejected NotFoundError, MemStore.mk ∅ true).
Proof. vm_compute. reflexivity. Qed.

(** ** Looking a discussion up *)

Section LocateProperties.
Variable getCurrentSiteId : string.
Variable getDiscussions :
  Z → option Z → Z → bool → string → promise Response.t.

Local Abbreviation find_ := (findDiscussion getDiscussions).

(** [find] returns the first discussion with the id looked for. *)
Lemma findInPage_first discussionId (l1 l2 : list Discussion.t) d :
  Forall (λ x, Discussion.id x ≠ discussionId) l1 →
  Discussion.id d = discussionId →
  findInPage discussionId (l1 ++ d :: l2) = Some d.
Proof.
  intros Hl1 Hd. unfold findInPage.
  induction Hl1 as [|x l1 Hx _ IH]; simpl.
  - by rewrite (proj2 (Z.eqb_eq _ _) Hd).
  - by rewrite (proj2 (Z.eqb_neq _ _) Hx).
Qed.

Lemma findInPage_none discussionId (l : list Discussion.t) :
  Forall (λ x, Discussion.id x ≠ discussionId) l →
  findInPage discussionId l = None.
Proof.
  intros Hl. unfold findInPage.
  induction Hl as [|x l Hx _ IH]; simpl; [done|].
  by rewrite (proj2 (Z.eqb_neq _ _) Hx).
Qed.

(** One request, by what the page holds. *)
Lemma findDiscussion_found fuel forumId discussionId site page r l d :
  getDiscussions forumId None page false site = Resolved r →
  Response.discussions r = Some l →
  findInPage discussionId l = Some d →
  find_ (S fuel) forumId discussionId site page = Some ([page], Resolved d).
Proof.
  intros Hr Hl Hd. cbn [findDiscussion]. rewrite Hr, Hl.
  destruct l as [|x l]; [done|]. cbv beta iota. by rewrite Hd.
Qed.

Lemma findDiscussion_advance fuel forumId discussionId site page r l :
  getDiscussions forumId None page false site = Resolved r →
  Response.discussions r = Some l →
  l ≠ [] →
  findInPage discussionId l = None →
  Response.canLoadMore r = true →
  find_ (S fuel) forumId discussionId site page
  = '(pages, p) ← find_ fuel forumId discussionId site (page + 1);
    Some (page :: pages, p).
Proof.
  intros Hr Hl Hne Hd Hm. cbn [findDiscussion]. rewrite Hr, Hl.
  destruct l as [|x l]; [done|]. cbv beta iota. by rewrite Hd, Hm.
Qed.

Lemma findDiscussion_last_page fuel forumId discussionId site page r l :
  getDiscussions forumId None page false site = Resolved r →
  Response.discussions r = Some l →
  findInPage discussionId l = None →
  Response.canLoadMore r = false →
  find_ (S fuel) forumId discussionId site page = Some ([page], Rejected Null).
Proof.
  intros Hr Hl Hd Hm. cbn [findDiscussion]. rewrite Hr, Hl.
  destruct l as [|x l]; [done|]. cbv beta iota. by rewrite Hd, Hm.
Qed.

Lemma findDiscussion_empty_page fuel forumId discussionId site page r :
  getDiscussions forumId None page false site = Resolved r →
  default [] (Response.discussions r) = [] →
  find_ (S fuel) forumId discussionId site page = Some ([page], Rejected Null).
Proof.
  intros Hr Hl. cbn [findDiscussion]. rewrite Hr.
  by destruct (Response.discussions r) as [[|x l]|].
Qed.

(** [n] pages that are passed over, then a page that settles the search. *)
Lemma findDiscussion_scan n fuel forumId discussionId site page out :
  (∀ k : nat, (k < n)%nat →
     ∃ r l, getDiscussions forumId None (page + Z.of_nat k) false site = Resolved r
            ∧ Response.discussions r = Some l ∧ l ≠ []
            ∧ Forall (λ x, Discussion.id x ≠ discussionId) l
            ∧ Response.canLoadMore r = true) →
  find_ fuel forumId discussionId site (page + Z.of_nat n)
  = Some ([page + Z.of_nat n], out) →
  find_ (n + fuel) forumId discussionId site page
  = Some (pagesFrom page (S n), out).
Proof.
  revert page. induction n as [|n IH]; intros page Hpass Hend.
  - replace (page + Z.of_nat 0) with page in Hend by lia. exact Hend.
  - destruct (Hpass 0%nat ltac:(lia)) as (r & l & Hr & Hl & Hne & Hno & Hm).
    replace (page + Z.of_nat 0) with page in Hr by lia.
    change (S n + fuel)%nat with (S (n + fuel)).
    rewrite (findDiscussion_advance _ _ _ _ _ r l)
      by auto using findInPage_none.
    rewrite (IH (page + 1)).
    + reflexivity.
    + intros k Hk. destruct (Hpass (S k) ltac:(lia)) as (r' & l' & Hr' & H').
      exists r', l'. split; [|exact H'].
      rewrite <- Hr'. f_equal. lia.
    + replace (page + 1 + Z.of_nat n) with (page + Z.of_nat (S n)) by lia.
      exact Hend.
Qed.

(** C2, as the code has it: the search requests page 0, 1, 2, ... in turn.
    Pages that hold discussions, none with the id looked for, and announce
    more pages are passed over; a page without discussions is not, whether
    or not it announces more.  On the first page that does otherwise the search ends:
    with the first discussion of that page that has the id, when there is
    one; with the rejection [null] when the page has no match and
    announces no more pages, or is empty.  [n + 1] units of fuel are enough
    for a search that ends on page [n]. *)
Theorem getDiscussionById_scan (n fuel : nat) forumId discussionId siteId response :
  let site := siteIdOrCurrent getCurrentSiteId siteId in
  let l := default [] (Response.discussions response) in
  (n < fuel)%nat →
  (∀ k : nat, (k < n)%nat →
     ∃ r lk, getDiscussions forumId None (Z.of_nat k) false site = Resolved r
             ∧ Response.discussions r = Some lk ∧ lk ≠ []
             ∧ Forall (λ x, Discussion.id x ≠ discussionId) lk
             ∧ Response.canLoadMore r = true) →
  getDiscussions forumId None (Z.of_nat n) false site = Resolved response →
  (∀ l1 d l2,
     l = l1 ++ d :: l2 →
     Forall (λ x, Discussion.id x ≠ discussionId) l1 →
     Discussion.id d = discussionId →
     getDiscussionById getCurrentSiteId getDiscussions fuel forumId discussionId siteId
     = Some (pagesFrom 0 (S n), Resolved d))
  ∧ ((Forall (λ x, Discussion.id x ≠ discussionId) l
      ∧ Response.canLoadMore response = false) ∨ l = [] →
     getDiscussionById getCurrentSiteId getDiscussions fuel forumId discussionId siteId
     = Some (pagesFrom 0 (S n), Rejected Null)).
Proof.
  intros site l Hfuel Hpass Hn. unfold getDiscussionById. fold site.
  destruct fuel as [|fuel]; [lia|].
  replace (S fuel) with (n + S (fuel - n))%nat by lia.
  split.
  - intros l1 d l2 Hl Hl1 Hd.
    apply findDiscussion_scan; [exact Hpass|]. simpl (0 + _).
    destruct (Response.discussions response) as [l'|] eqn:Hl'.
    + apply (findDiscussion_found _ _ _ _ _ response l'); [done..|].
      subst l. simpl in Hl. rewrite Hl. by apply findInPage_first.
    + subst l. simpl in Hl. by destruct l1.
  - intros Hend.
    apply findDiscussion_scan; [exact Hpass|]. simpl (0 + _).
    destruct (Response.discussions response) as [l'|] eqn:Hl'.
    + destruct Hend as [[Hno Hm]|He].
      * apply (findDiscussion_last_page _ _ _ _ _ response l');
          auto using findInPage_none.
      * apply (findDiscussion_empty_page _ _ _ _ _ response); [done|].
        by rewrite Hl'.
    + apply (findDiscussion_empty_page _ _ _ _ _ response); [done|].
      by rewrite Hl'.
Qed.
End LocateProperties.

Lemma getDiscussionById_scan_witness :
  getDiscussionById "site1" Sample.getDiscussions 3 3 25 None
  = Some ([0; 1; 2], Resolved (Discussion.mk 25 "Party")).
Proof.
  refine (proj1 (getDiscussionById_scan "site1" Sample.getDiscussions
                   2 3 3 25 None
                   (Response.mk (Some [Discussion.mk 24 "Marks"; Discussion.mk 25 "Party"]) false)
                   _ _ _)
            [Discussion.mk 24 "Marks"] (Discussion.mk 25 "Party") [] _ _ _).
  - lia.
  - intros [|[|k]] Hk; [| |lia]; simpl;
      eexists _, _; (split; [reflexivity|]);
      repeat split; try done; repeat constructor; simpl; lia.
  - reflexivity.
  - reflexivity.
  - repeat constructor. simpl. lia.
  - reflexivity.
Defined.

(** C2, as stated, fails: page 0 has no discussion with the id looked for
    and announces more pages, and page 1 holds the discussion, so the
    search should advance and resolve with it; page 0 being empty, the
    search ends there with the rejection [null], after one request. *)
Lemma getDiscussionById_stops_at_empty_page_announcing_more :
  Sample.getDiscussionsEmptyFirst 3 None 0 false "site1"
  = Resolved (Response.mk (Some []) true)
  ∧ findInPage 25 [] = None
  ∧ Response.canLoadMore (Response.mk (Some []) true) = true
  ∧ findDiscussion Sample.getDiscussionsEmptyFirst 4 3 25 "site1" (0 + 1)
    = Some ([1], Resolved (Discussion.mk 25 "Party"))
  ∧ getDiscussionById "site1" Sample.getDiscussionsEmptyFirst 5 3 25 None
    = Some ([0], Rejected Null)
  ∧ getDiscussionById "site1" Sample.getDiscussionsEmptyFirst 5 3 25 None
    ≠ Some ([0; 1], Resolved (Discussion.mk 25 "Party")).
Proof. repeat split; try reflexivity. discriminate. Qed.

(** An empty page ends the search even when it announces more pages. *)
Example empty_page_ends_search :
  getDiscussionById "site1"
    (λ _ _ page _ _,
       if page =? 0 then Resolved (Response.mk (Some []) true)
       else Resolved (Response.mk (Some [Discussion.mk 25 "Party"]) false))
    5 3 25 None
  = Some ([0], Rejected Null).
Proof. reflexivity. Qed.

(** ** Detecting changes *)

Section ChangesProperties.
Variable areFileListDifferent : list file → list file → bool.

(** C7: without original data, or with an original whose subject is null
    or undefined, nothing has changed.  Otherwise the data has changed
    exactly when the subjects, the messages or the private-reply flags
    differ, or, these three being equal, when the uploader finds the two
    file lists different. *)
Theorem hasPostDataChanged_spec (post : PostData.t) (original : option PostData.t) :
  (original = None → hasPostDataChanged areFileListDifferent post original = false)
  ∧ (∀ o, original = Some o → PostData.subject o = None →
       hasPostDataChanged areFileListDifferent post original = false)
  ∧ (∀ o, original = Some o → PostData.subject o ≠ None →
       (hasPostDataChanged areFileListDifferent post original = true
        ↔ PostData.subject post ≠ PostData.subject o
          ∨ PostData.message post ≠ PostData.message o
          ∨ PostData.isprivatereply post ≠ PostData.isprivatereply o
          ∨ (PostData.subject post = PostData.subject o
             ∧ PostData.message post = PostData.message o
             ∧ PostData.isprivatereply post = PostData.isprivatereply o
             ∧ areFileListDifferent (PostData.files post) (PostData.files o) = true))).
Proof.
  split; [by intros ->|]. split.
  - intros o -> Hs. unfold hasPostDataChanged. by rewrite bool_decide_eq_true_2.
  - intros o -> Hs. unfold hasPostDataChanged.
    rewrite (bool_decide_eq_false_2 _ Hs).
    repeat case_bool_decide; simpl; intuition congruence.
Qed.
End ChangesProperties.

Lemma hasPostDataChanged_spec_witness :
  (* only the private-reply flag differs: undefined against false *)
  hasPostDataChanged Sample.areFileListDifferent
    (PostData.mk (Some "Exam dates") (Some "When is it?") None [Sample.remote0])
    (Some Sample.original) = true
  ∧ hasPostDataChanged Sample.areFileListDifferent Sample.original None = false.
Proof.
  split.
  - apply (proj2 (proj2 (hasPostDataChanged_spec Sample.areFileListDifferent
                           (PostData.mk (Some "Exam dates") (Some "When is it?")
                              None [Sample.remote0])
                           (Some Sample.original)))
             Sample.original eq_refl); [discriminate|].
    right. right. left. discriminate.
  - apply (proj1 (hasPostDataChanged_spec Sample.areFileListDifferent
                    Sample.original None)).
    reflexivity.
Defined.

(** ** Availability message *)

Lemma Qltb_lt (x y : Q) : Qltb x y = true ↔ (x < y)%Q.
Proof.
  unfold Qltb. rewrite negb_true_iff, <- not_true_iff_false, Qle_bool_iff.
  split; [apply Qnot_le_lt | apply Qlt_not_le].
Qed.

Section AvailabilityProperties.
Variable instant : string → option string → string.
Variable userDate : number → string.

Lemma isCutoffDateReached_spec DateNow forum :
  isCutoffDateReached DateNow forum = true
  ↔ 0 < Forum.cutoffdate forum
    ∧ (inject_Z (Forum.cutoffdate forum) < nowOf DateNow)%Q.
Proof.
  unfold isCutoffDateReached.
  by rewrite andb_true_iff, Z.ltb_lt, Qltb_lt.
Qed.

Lemma isDueDateReached_spec DateNow forum :
  isDueDateReached DateNow forum = true
  ↔ 0 < Forum.duedate forum
    ∧ (inject_Z (Forum.duedate forum) < nowOf DateNow)%Q.
Proof.
  unfold isDueDateReached.
  by rewrite andb_true_iff, Z.ltb_lt, Qltb_lt.
Qed.


(** Past [2^53] it is rounded, and past the largest double it is an
    infinity. *)
Example mulNumber_rounds :
  mulNumber 9007199254740991 1000 = Finite 9007199254740990976
  ∧ mulNumber 72057594037929 1000 = Finite 72057594037928992
  ∧ mulNumber (10 ^ 306) 1000 = PlusInfinity.
Proof. repeat split; vm_compute; reflexivity. Qed.

End AvailabilityProperties.


(** ** Uploading or storing files *)

Section RouterProperties.
Variable COMPONENT : string.
Variable result : Type.
Variable getNewDiscussionFolder : Z → Z → option string → promise string.
Variable getReplyFolder : Z → Z → option string → option Z → promise string.
Variable storeFilesToUpload : string → list file → promise result.
Variable uploadOrReuploadFiles :
  list file → string → Z → option string → promise result.

(** C9: the two operations branch on [offline] alone.  When it is true
    the files are stored under the folder of the new discussion, or of the
    reply, and the outcome of the store is returned (a failure to name the
    folder is returned as it is); when it is false the outcome is that of
    [uploadOrReuploadFiles] called with the files, the forum component,
    the forum id and the site id. *)
Theorem uploadOrStore_branches forumId timecreated postId files siteId userId :
  uploadOrStoreNewDiscussionFiles COMPONENT result getNewDiscussionFolder
    storeFilesToUpload uploadOrReuploadFiles forumId timecreated files true siteId
  = match getNewDiscussionFolder forumId timecreated siteId with
    | Resolved folderPath => storeFilesToUpload folderPath files
    | Rejected e => Rejected e
    end
  ∧ uploadOrStoreNewDiscussionFiles COMPONENT result getNewDiscussionFolder
      storeFilesToUpload uploadOrReuploadFiles forumId timecreated files false siteId
    = uploadOrReuploadFiles files COMPONENT forumId siteId
  ∧ uploadOrStoreReplyFiles COMPONENT result getReplyFolder
      storeFilesToUpload uploadOrReuploadFiles forumId postId files true siteId userId
    = match getReplyFolder forumId postId siteId userId with
      | Resolved folderPath => storeFilesToUpload folderPath files
      | Rejected e => Rejected e
      end
  ∧ uploadOrStoreReplyFiles COMPONENT result getReplyFolder
      storeFilesToUpload uploadOrReuploadFiles forumId postId files false siteId userId
    = uploadOrReuploadFiles files COMPONENT forumId siteId.
Proof. repeat split. Qed.
End RouterProperties.

(** * Further properties *)

(** ** More on the conversion *)

Section ConvertMore.
Variable getReplyFolder : Z → Z → option string → option Z → promise string.
Variable getStoredFiles : string → promise (list file).
Variable getProfile : Z → Z → bool → promise User.t.

Local Abbreviation convert :=
  (convertOfflineReplyToOnline getReplyFolder getStoredFiles getProfile).
Local Abbreviation storedFiles o siteId :=
  (getReplyStoredFiles getReplyFolder getStoredFiles (OfflineReply.forumid o)
     (OfflineReply.postid o) siteId (Some (OfflineReply.userid o))).

(** X1: the conversion rejects in one case only, with one reason: the draft
    marks offline attachments and the listing of the reply folder rejects
    with that reason. *)
Theorem convert_rejects_iff s (o : OfflineReply.t) siteId e :
  convert s o siteId = Rejected e
  ↔ hasOfflineAttachments o = true ∧ storedFiles o siteId = Rejected e.
Proof.
  pose proof (convert_outcome getReplyFolder getStoredFiles getProfile s o siteId) as H.
  destruct (hasOfflineAttachments o).
  - destruct (storedFiles o siteId) as [files|e0].
    + destruct H as (post & Hc & _). rewrite Hc. split; [done|].
      by intros [_ ?].
    + rewrite H. split; [by intros [= ->]|by intros [_ [= ->]]].
  - destruct H as (post & Hc & _). rewrite Hc. split; [done|by intros [? _]].
Qed.

(** X2: the post does not depend on which of the two subtasks settles
    first. *)
Theorem convert_schedule_independent (o : OfflineReply.t) siteId :
  convert AttachmentsFirst o siteId = convert ProfileFirst o siteId.
Proof.
  unfold convertOfflineReplyToOnline.
  destruct (hasOfflineAttachments o) eqn:Hoff.
  - rewrite treatAttachments_offline by done. unfold profileTask.
    by destruct (storedFiles o siteId) as [files|e],
         (getProfile _ _ _) as [u|e'].
  - rewrite treatAttachments_online_only by done. unfold profileTask.
    by destruct (_ ← OfflineReply.options o; _) as [att|],
         (getProfile _ _ _) as [u|e'].
Qed.

(** X3: the post of a successful conversion carries the fields of the
    draft (creation time, discussion, parent post, subject, message, user,
    private flag) and the values of a post the server has not seen:
    [id] and [modified] are [false], the counters are 0, the message format
    is 1, there are no children, and it cannot be replied to. *)
Theorem convert_field_mapping s (o : OfflineReply.t) siteId post :
  convert s o siteId = Resolved post →
  (Reply.created post = OfflineReply.timecreated o
   ∧ Reply.discussion post = OfflineReply.discussionid o
   ∧ Reply.parent post = OfflineReply.postid o
   ∧ Reply.subject post = OfflineReply.subject o
   ∧ Reply.message post = OfflineReply.message o
   ∧ Reply.userid post = OfflineReply.userid o
   ∧ Reply.isprivatereply post
     = (opts ← OfflineReply.options o; Options.private opts))
  ∧ (Reply.id post = None
     ∧ Reply.modified post = None
     ∧ Reply.canreply post = false
     ∧ Reply.postread post = false
     ∧ Reply.children post = []
     ∧ Reply.mailed post = 0
     ∧ Reply.mailnow post = 0
     ∧ Reply.messageformat post = 1
     ∧ Reply.messagetrust post = 0
     ∧ Reply.totalscore post = 0).
Proof.
  unfold convertOfflineReplyToOnline.
  destruct (hasOfflineAttachments o) eqn:Hoff.
  - rewrite treatAttachments_offline by done. unfold profileTask.
    destruct (storedFiles o siteId) as [files|e],
      (getProfile _ _ _) as [u|e'], s; simpl; intros [= <-]; done.
  - rewrite treatAttachments_online_only by done. unfold profileTask.
    destruct (_ ← OfflineReply.options o; _) as [att|],
      (getProfile _ _ _) as [u|e'], s; simpl; intros [= <-]; done.
Qed.

(** X4: when the profile is fetched, the post of a successful conversion
    has the full name and the picture of that profile. *)
Theorem convert_profile_enrichment s (o : OfflineReply.t) siteId user post :
  getProfile (OfflineReply.userid o) (OfflineReply.courseid o) true = Resolved user →
  convert s o siteId = Resolved post →
  Reply.userfullname post = User.fullname user
  ∧ Reply.userpictureurl post = User.profileimageurl user.
Proof.
  intros Hp Hc.
  pose proof (convert_outcome getReplyFolder getStoredFiles getProfile s o siteId) as H.
  rewrite Hp in H.
  destruct (if hasOfflineAttachments o then _ else _) as [files|e];
    [|congruence].
  destruct H as (post' & Hc' & _ & _ & _ & Hn & Hu).
  assert (post' = post) as -> by congruence. done.
Qed.

(** X5: a draft that marks no offline attachment (no options, no
    [attachmentsid], or an [offline] count that is missing or 0) is
    converted without the stored files: the conversion resolves, whatever
    the folder and the listing would answer, and the attachments are the
    online ones. *)
Theorem convert_online_only s (o : OfflineReply.t) siteId :
  hasOfflineAttachments o = false →
  ∃ post, convert s o siteId = Resolved post
          ∧ Reply.attachments post = onlineAttachments o.
Proof.
  intros Hoff.
  pose proof (convert_outcome getReplyFolder getStoredFiles getProfile s o siteId) as H.
  rewrite Hoff in H. destruct H as (post & Hc & Ha & _).
  exists post. by rewrite app_nil_r in Ha.
Qed.
End ConvertMore.

Lemma convert_field_mapping_witness :
  ∃ post,
    convertOfflineReplyToOnline MemStore.getReplyFolder Sample.getStoredFiles
      Sample.getProfile AttachmentsFirst Sample.draft None = Resolved post
    ∧ Reply.parent post = 42 ∧ Reply.id post = None.
Proof.
  eexists. split; [reflexivity|].
  pose proof (convert_field_mapping MemStore.getReplyFolder Sample.getStoredFiles
                Sample.getProfile AttachmentsFirst Sample.draft None _ eq_refl)
    as [(_ & _ & Hp & _) (Hi & _)].
  split; [exact Hp | exact Hi].
Defined.

Lemma convert_profile_enrichment_witness :
  ∃ post,
    convertOfflineReplyToOnline MemStore.getReplyFolder Sample.getStoredFiles
      Sample.getProfile ProfileFirst Sample.draft None = Resolved post
    ∧ Reply.userfullname post = Some "Ada Lovelace"
    ∧ Reply.userpictureurl post = Some "https://campus.example/u/7.png".
Proof.
  eexists. split; [reflexivity|].
  apply (convert_profile_enrichment MemStore.getReplyFolder Sample.getStoredFiles
           Sample.getProfile ProfileFirst Sample.draft None
           (User.mk (Some "Ada Lovelace") (Some "https://campus.example/u/7.png")));
    reflexivity.
Defined.

Lemma convert_online_only_witness :
  ∃ post,
    convertOfflineReplyToOnline MemStore.getReplyFolder
      Sample.getStoredFilesFailing Sample.getProfile AttachmentsFirst
      Sample.draftOnlineOnly None = Resolved post
    ∧ Reply.attachments post = [Sample.remote0].
Proof.
  apply (convert_online_only MemStore.getReplyFolder
           Sample.getStoredFilesFailing Sample.getProfile AttachmentsFirst
           Sample.draftOnlineOnly None).
  reflexivity.
Defined.

(** ** More on the discussion lookup *)

Section LocateMore.
Variable getCurrentSiteId : string.
Variable getDiscussions :
  Z → option Z → Z → bool → string → promise Response.t.

Local Abbreviation find_ := (findDiscussion getDiscussions).
Local Abbreviation byId := (getDiscussionById getCurrentSiteId getDiscussions).

Lemma findDiscussion_rejected fuel forumId discussionId site page e :
  getDiscussions forumId None page false site = Rejected e →
  find_ (S fuel) forumId discussionId site page = Some ([page], Rejected e).
Proof. intros Hr. cbn [findDiscussion]. by rewrite Hr. Qed.

(** What [find] returns is the first element with the id, and conversely. *)
Lemma findInPage_Some discussionId (l : list Discussion.t) d :
  findInPage discussionId l = Some d →
  ∃ l1 l2, l = l1 ++ d :: l2
           ∧ Forall (λ x, Discussion.id x ≠ discussionId) l1
           ∧ Discussion.id d = discussionId.
Proof.
  unfold findInPage. induction l as [|x l IH]; simpl; [done|].
  destruct (Discussion.id x =? discussionId) eqn:Hx.
  - intros [= ->]. exists [], l. by apply Z.eqb_eq in Hx.
  - intros Hd. destruct (IH Hd) as (l1 & l2 & -> & Hl1 & Hid).
    exists (x :: l1), l2. apply Z.eqb_neq in Hx. by repeat constructor.
Qed.

(** One request, read backwards: the four ways a search can go on a page. *)
Lemma findDiscussion_inv fuel forumId discussionId site page pages out :
  find_ (S fuel) forumId discussionId site page = Some (pages, out) →
  (∃ e, getDiscussions forumId None page false site = Rejected e
        ∧ pages = [page] ∧ out = Rejected e)
  ∨ (∃ r l d, getDiscussions forumId None page false site = Resolved r
              ∧ Response.discussions r = Some l
              ∧ findInPage discussionId l = Some d
              ∧ pages = [page] ∧ out = Resolved d)
  ∨ (∃ r, getDiscussions forumId None page false site = Resolved r
          ∧ (default [] (Response.discussions r) = []
             ∨ (findInPage discussionId (default [] (Response.discussions r)) = None
                ∧ Response.canLoadMore r = false))
          ∧ pages = [page] ∧ out = Rejected Null)
  ∨ (∃ r l pages', getDiscussions forumId None page false site = Resolved r
                   ∧ Response.discussions r = Some l ∧ l ≠ []
                   ∧ findInPage discussionId l = None
                   ∧ Response.canLoadMore r = true
                   ∧ find_ fuel forumId discussionId site (page + 1) = Some (pages', out)
                   ∧ pages = page :: pages').
Proof.
  cbn [findDiscussion]. intros H.
  destruct (getDiscussions forumId None page false site) as [r|e];
    [|simplify_eq; left; eauto].
  right.
  destruct (Response.discussions r) as [[|x l]|] eqn:Hl;
    try (simplify_eq; right; left; exists r; rewrite Hl; by auto).
  destruct (findInPage discussionId (x :: l)) as [d|] eqn:Hd.
  { simplify_eq. left. by exists r, (x :: l), d. }
  destruct (Response.canLoadMore r) eqn:Hm.
  - destruct (find_ fuel forumId discussionId site (page + 1))
      as [[pages' out']|] eqn:Hrec; simpl in H; [|done].
    simplify_eq. right. right. by exists r, (x :: l), pages'.
  - simplify_eq. right. left. exists r. rewrite Hl. simpl. auto.
Qed.

(** X6: a page request that fails ends the search with that failure: when
    pages 0 to [n - 1] are passed over and the request for page [n]
    rejects, the search rejects with the same reason after requesting
    pages 0 to [n]. *)
Theorem getDiscussionById_fetch_failure (n fuel : nat) forumId discussionId siteId e :
  let site := siteIdOrCurrent getCurrentSiteId siteId in
  (n < fuel)%nat →
  (∀ k : nat, (k < n)%nat →
     ∃ r lk, getDiscussions forumId None (Z.of_nat k) false site = Resolved r
             ∧ Response.discussions r = Some lk ∧ lk ≠ []
             ∧ Forall (λ x, Discussion.id x ≠ discussionId) lk
             ∧ Response.canLoadMore r = true) →
  getDiscussions forumId None (Z.of_nat n) false site = Rejected e →
  byId fuel forumId discussionId siteId = Some (pagesFrom 0 (S n), Rejected e).
Proof.
  intros site Hfuel Hpass Hn. unfold getDiscussionById. fold site.
  replace fuel with (n + S (fuel - S n))%nat by lia.
  apply findDiscussion_scan; [exact Hpass|]. simpl (0 + _).
  by apply findDiscussion_rejected.
Qed.

Lemma findDiscussion_pages fuel forumId discussionId site page pages out :
  find_ fuel forumId discussionId site page = Some (pages, out) →
  pages = pagesFrom page (length pages) ∧ (0 < length pages ≤ fuel)%nat.
Proof.
  revert page pages. induction fuel as [|fuel IH]; intros page pages H; [done|].
  apply findDiscussion_inv in H
    as [(e & _ & -> & _)|[(r & l & d & _ & _ & _ & -> & _)
       |[(r & _ & _ & -> & _)|(r & l & pages' & _ & _ & _ & _ & _ & Hrec & ->)]]];
    try (simpl; split; [done|lia]).
  destruct (IH _ _ Hrec) as [Hp Hl]. simpl. split; [by rewrite <- Hp|lia].
Qed.

(** X7: whatever the outcome, the pages requested are 0, 1, 2, ... without
    a gap or a repetition: at least one, and no more than the fuel. *)
Theorem getDiscussionById_pages_in_order fuel forumId discussionId siteId pages out :
  byId fuel forumId discussionId siteId = Some (pages, out) →
  pages = pagesFrom 0 (length pages) ∧ (0 < length pages ≤ fuel)%nat.
Proof. apply findDiscussion_pages. Qed.

Lemma findDiscussion_sound fuel forumId discussionId site page pages d :
  find_ fuel forumId discussionId site page = Some (pages, Resolved d) →
  ∃ r l1 l2,
    getDiscussions forumId None (page + Z.of_nat (length pages) - 1) false site
    = Resolved r
    ∧ Response.discussions r = Some (l1 ++ d :: l2)
    ∧ Forall (λ x, Discussion.id x ≠ discussionId) l1
    ∧ Discussion.id d = discussionId.
Proof.
  revert page pages. induction fuel as [|fuel IH]; intros page pages H; [done|].
  apply findDiscussion_inv in H
    as [(e & _ & _ & [=])|[(r & l & d' & Hr & Hl & Hd & -> & [= <-])
       |[(r & _ & _ & _ & [=])|(r & l & pages' & _ & _ & _ & _ & _ & Hrec & ->)]]].
  - apply findInPage_Some in Hd as (l1 & l2 & -> & Hl1 & Hid).
    exists r, l1, l2. replace (page + Z.of_nat (length [page]) - 1) with page
      by (simpl; lia). done.
  - destruct (IH _ _ Hrec) as (r' & l1 & l2 & Hr' & H').
    exists r', l1, l2. split; [|exact H'].
    rewrite <- Hr'. f_equal. simpl length. lia.
Qed.

(** X8: a discussion the search resolves with has the id looked for and is
    the first one with that id on the last page requested. *)
Theorem getDiscussionById_sound fuel forumId discussionId siteId pages d :
  byId fuel forumId discussionId siteId = Some (pages, Resolved d) →
  ∃ r l1 l2,
    getDiscussions forumId None (Z.of_nat (length pages) - 1) false
      (siteIdOrCurrent getCurrentSiteId siteId) = Resolved r
    ∧ Response.discussions r = Some (l1 ++ d :: l2)
    ∧ Forall (λ x, Discussion.id x ≠ discussionId) l1
    ∧ Discussion.id d = discussionId.
Proof.
  intros H. apply findDiscussion_sound in H. exact H.
Qed.

(** X9: on a server whose every page holds discussions, none with the id
    looked for, and announces more pages, the search never settles: no
    amount of fuel gives an outcome. *)
Theorem getDiscussionById_endless forumId discussionId siteId :
  (∀ k : nat,
     ∃ r l, getDiscussions forumId None (Z.of_nat k) false
              (siteIdOrCurrent getCurrentSiteId siteId) = Resolved r
            ∧ Response.discussions r = Some l ∧ l ≠ []
            ∧ Forall (λ x, Discussion.id x ≠ discussionId) l
            ∧ Response.canLoadMore r = true) →
  ∀ fuel, byId fuel forumId discussionId siteId = None.
Proof.
  intros Hall fuel. unfold getDiscussionById.
  change 0 with (Z.of_nat 0). generalize 0%nat as k.
  induction fuel as [|fuel IH]; intros k; [done|].
  destruct (Hall k) as (r & l & Hr & Hl & Hne & Hno & Hm).
  rewrite (findDiscussion_advance _ _ _ _ _ _ r l)
    by auto using findInPage_none.
  replace (Z.of_nat k + 1) with (Z.of_nat (S k)) by lia.
  by rewrite IH.
Qed.

(** X10: a missing site id and an empty one both stand for the current
    site; any other site id is the one the pages are requested from. *)
Theorem getDiscussionById_site fuel forumId discussionId :
  getDiscussionById getCurrentSiteId getDiscussions fuel forumId discussionId (Some "")
  = getDiscussionById getCurrentSiteId getDiscussions fuel forumId discussionId None
  ∧ getDiscussionById getCurrentSiteId getDiscussions fuel forumId discussionId None
    = findDiscussion getDiscussions fuel forumId discussionId getCurrentSiteId 0
  ∧ ∀ s, s ≠ "" →
      getDiscussionById getCurrentSiteId getDiscussions fuel forumId discussionId (Some s)
      = findDiscussion getDiscussions fuel forumId discussionId s 0.
Proof.
  repeat split. intros s Hs. unfold getDiscussionById, siteIdOrCurrent.
  by rewrite bool_decide_eq_false_2.
Qed.
End LocateMore.

Lemma getDiscussionById_fetch_failure_witness :
  getDiscussionById "site1" Sample.getDiscussionsFailing 5 3 25 None
  = Some ([0; 1], Rejected (OtherError "no connection")).
Proof.
  apply (getDiscussionById_fetch_failure "site1" Sample.getDiscussionsFailing
           1 5 3 25 None (OtherError "no connection")).
  - lia.
  - intros [|k] Hk; [|lia]. eexists _, _. split; [reflexivity|].
    repeat split; try done. repeat constructor. simpl. lia.
  - reflexivity.
Defined.

Lemma getDiscussionById_pages_in_order_witness :
  [0; 1; 2] = pagesFrom 0 (length [0; 1; 2]) ∧ (0 < length [0; 1; 2] ≤ 3)%nat.
Proof.
  apply (getDiscussionById_pages_in_order "site1" Sample.getDiscussions 3 3 25
           None [0; 1; 2] (Resolved (Discussion.mk 25 "Party"))).
  reflexivity.
Defined.

Lemma getDiscussionById_sound_witness :
  ∃ r l1 l2,
    Sample.getDiscussions 3 None (Z.of_nat (length [0; 1; 2]) - 1) false
      (siteIdOrCurrent "site1" None) = Resolved r
    ∧ Response.discussions r = Some (l1 ++ Discussion.mk 25 "Party" :: l2)
    ∧ Forall (λ x, Discussion.id x ≠ 25) l1
    ∧ Discussion.id (Discussion.mk 25 "Party") = 25.
Proof.
  apply (getDiscussionById_sound "site1" Sample.getDiscussions 3 3 25 None
           [0; 1; 2] (Discussion.mk 25 "Party")).
  reflexivity.
Defined.

Lemma getDiscussionById_endless_witness :
  getDiscussionById "site1" Sample.getDiscussionsEndless 1000 3 25 None = None.
Proof.
  apply (getDiscussionById_endless "site1" Sample.getDiscussionsEndless 3 25 None).
  intros k. eexists _, _. split; [reflexivity|].
  repeat split; try done. repeat constructor. simpl. lia.
Defined.

Lemma getDiscussionById_site_witness :
  getDiscussionById "site1" Sample.getDiscussions 3 3 25 (Some "site2")
  = findDiscussion Sample.getDiscussions 3 3 25 "site2" 0.
Proof.
  apply (getDiscussionById_site "site1" Sample.getDiscussions 3 3 25).
  discriminate.
Defined.

(** ** More on the availability message *)

Section AvailabilityMore.
Variable instant : string → option string → string.
Variable userDate : number → string.

(** X11: the order of precedence holds as well when the clock moves
    between the two checks: the cut-off date is compared with the first
    reading, the due date with the second.  The formatted due date is
    [userDate] of the number [duedate * 1000]. *)
Theorem getAvailabilityMessage_two_readings (forum : Forum.t) (DateNow1 DateNow2 : Z) :
  let cutoffReached :=
    0 < Forum.cutoffdate forum
    ∧ (inject_Z (Forum.cutoffdate forum) < DateNow1 # 1000)%Q in
  let dueReached :=
    0 < Forum.duedate forum
    ∧ (inject_Z (Forum.duedate forum) < DateNow2 # 1000)%Q in
  let dueDate := userDate (mulNumber (Forum.duedate forum) 1000) in
  let message := getAvailabilityMessage instant userDate DateNow1 DateNow2 forum in
  (cutoffReached →
   message = Some (instant "addon.mod_forum.cutoffdatereached" None))
  ∧ (¬ cutoffReached → dueReached →
     message = Some (instant "addon.mod_forum.thisforumisdue" (Some dueDate)))
  ∧ (¬ cutoffReached → ¬ dueReached → 0 < Forum.duedate forum →
     message = Some (instant "addon.mod_forum.thisforumhasduedate" (Some dueDate)))
  ∧ (¬ cutoffReached → ¬ dueReached → ¬ 0 < Forum.duedate forum →
     message = None).
Proof.
  intros cutoffReached dueReached dueDate message.
  subst message. unfold getAvailabilityMessage.
  pose proof (isCutoffDateReached_spec DateNow1 forum) as Hc.
  pose proof (isDueDateReached_spec DateNow2 forum) as Hd.
  pose proof (Z.ltb_lt 0 (Forum.duedate forum)) as Hz.
  unfold nowOf in Hc, Hd.
  fold cutoffReached in Hc. fold dueReached in Hd.
  destruct (isCutoffDateReached DateNow1 forum),
    (isDueDateReached DateNow2 forum), (0 <? Forum.duedate forum);
    repeat split; intros; try done; exfalso; intuition discriminate.
Qed.

(** X12: there is no message exactly when the forum has no due date and
    its cut-off date is not set or not passed; a forum with a due date
    always has one. *)
Theorem getAvailabilityMessage_none_iff (forum : Forum.t) (DateNow1 DateNow2 : Z) :
  getAvailabilityMessage instant userDate DateNow1 DateNow2 forum = None
  ↔ Forum.duedate forum ≤ 0
    ∧ ¬ (0 < Forum.cutoffdate forum
         ∧ (inject_Z (Forum.cutoffdate forum) < nowOf DateNow1)%Q).
Proof.
  unfold getAvailabilityMessage.
  rewrite <- isCutoffDateReached_spec.
  destruct (isCutoffDateReached DateNow1 forum).
  { split; [done|]. by intros [_ []]. }
  unfold isDueDateReached.
  destruct (0 <? Forum.duedate forum) eqn:Hz; simpl.
  - apply Z.ltb_lt in Hz.
    destruct (Qltb _ _); (split; [done|]); intros [? _]; lia.
  - apply Z.ltb_ge in Hz. split; [|done]. intros _. split; [done|].
    discriminate.
Qed.

(** X13: a date that is reached stays reached as the clock advances. *)
Theorem dates_stay_reached (forum : Forum.t) (DateNow1 DateNow2 : Z) :
  DateNow1 ≤ DateNow2 →
  (isCutoffDateReached DateNow1 forum = true →
   isCutoffDateReached DateNow2 forum = true)
  ∧ (isDueDateReached DateNow1 forum = true →
     isDueDateReached DateNow2 forum = true).
Proof.
  intros Hle. rewrite !isCutoffDateReached_spec, !isDueDateReached_spec.
  unfold nowOf, Qlt. simpl. lia.
Qed.
End AvailabilityMore.

Lemma getAvailabilityMessage_two_readings_witness :
  (* the due date 200 is passed between the readings 199.5 and 200.5 *)
  getAvailabilityMessage Sample.instant Sample.userDate 199500 200500
    (Forum.mk 3 300 200) = Some "addon.mod_forum.thisforumisdue 200".
Proof.
  pose proof (getAvailabilityMessage_two_readings Sample.instant Sample.userDate
                (Forum.mk 3 300 200) 199500 200500) as (_ & H & _).
  cbv zeta in H. apply H.
  - intros [_ Hq]. unfold Qlt in Hq. simpl in Hq. lia.
  - split; [done|]. unfold Qlt. simpl. lia.
Defined.

Lemma dates_stay_reached_witness :
  isCutoffDateReached 200500 (Forum.mk 3 100 200) = true.
Proof.
  refine (proj1 (dates_stay_reached (Forum.mk 3 100 200) 150000 200500 _) _);
    [lia|reflexivity].
Defined.

(** ** More on change detection *)

Section ChangesMore.
Variable areFileListDifferent : list file → list file → bool.

(** X14: data compared with itself has not changed, as soon as the
    uploader does not find its file list different from itself. *)
Theorem hasPostDataChanged_same (post : PostData.t) :
  areFileListDifferent (PostData.files post) (PostData.files post) = false →
  hasPostDataChanged areFileListDifferent post (Some post) = false.
Proof.
  intros Hf. unfold hasPostDataChanged.
  case_bool_decide; [done|].
  by rewrite !bool_decide_eq_true_2.
Qed.

(** X15: when both subjects are set and the comparison of file lists is
    symmetric, it does not matter which of the two is taken as the
    original. *)
Theorem hasPostDataChanged_sym (post original : PostData.t) :
  (∀ a b, areFileListDifferent a b = areFileListDifferent b a) →
  PostData.subject post ≠ None →
  PostData.subject original ≠ None →
  hasPostDataChanged areFileListDifferent post (Some original)
  = hasPostDataChanged areFileListDifferent original (Some post).
Proof.
  intros Hsym Hp Ho. unfold hasPostDataChanged.
  rewrite (bool_decide_eq_false_2 _ Hp), (bool_decide_eq_false_2 _ Ho).
  rewrite (Hsym (PostData.files post)).
  repeat case_bool_decide; simpl; congruence.
Qed.
End ChangesMore.

Lemma hasPostDataChanged_same_witness :
  hasPostDataChanged Sample.areFileListDifferent Sample.original
    (Some Sample.original) = false.
Proof.
  apply (hasPostDataChanged_same Sample.areFileListDifferent Sample.original).
  reflexivity.
Defined.

Lemma hasPostDataChanged_sym_witness :
  hasPostDataChanged Sample.areFileListDifferent
    (PostData.mk (Some "Exam") (Some "When is it?") (Some false) [])
    (Some Sample.original)
  = hasPostDataChanged Sample.areFileListDifferent Sample.original
      (Some (PostData.mk (Some "Exam") (Some "When is it?") (Some false) [])).
Proof.
  apply (hasPostDataChanged_sym Sample.areFileListDifferent
           (PostData.mk (Some "Exam") (Some "When is it?") (Some false) [])
           Sample.original).
  - intros a b. unfold Sample.areFileListDifferent. f_equal.
    apply bool_decide_ext. tauto.
  - discriminate.
  - discriminate.
Defined.

(** Without a subject on one side the order matters: against data without
    a subject nothing has changed, the other way round the subject has. *)
Example hasPostDataChanged_not_sym :
  hasPostDataChanged Sample.areFileListDifferent Sample.original
    (Some (PostData.mk None (Some "When is it?") (Some false) [Sample.remote0]))
  = false
  ∧ hasPostDataChanged Sample.areFileListDifferent
      (PostData.mk None (Some "When is it?") (Some false) [Sample.remote0])
      (Some Sample.original)
    = true.
Proof. split; reflexivity. Qed.

(** ** More on the stored files *)

Section FoldersMore.
Variable FS : Type.
Variable result : Type.
Variable getNewDiscussionFolder : Z → Z → option string → promise string.
Variable getReplyFolder : Z → Z → option string → option Z → promise string.
Variable getStoredFiles : string → promise (list file).
Variable storeFilesToUpload : string → list file → promise result.
Variable removeDir : string → FS → promise unit * FS.
Variable getProfile : Z → Z → bool → promise User.t.

(** X16: deleting stored files rejects exactly when the folder cannot be
    named, with the reason of that failure; [removeDir] is then not run,
    the store is the one the operation started in. *)
Theorem delete_rejects_iff forumId timecreated postId siteId userId fs e :
  (((deleteNewDiscussionStoredFiles FS getNewDiscussionFolder removeDir
       forumId timecreated siteId fs).1 = Rejected e
    ↔ getNewDiscussionFolder forumId timecreated siteId = Rejected e)
   ∧ (getNewDiscussionFolder forumId timecreated siteId = Rejected e →
      deleteNewDiscussionStoredFiles FS getNewDiscussionFolder removeDir
        forumId timecreated siteId fs = (Rejected e, fs)))
  ∧ (((deleteReplyStoredFiles FS getReplyFolder removeDir
         forumId postId siteId userId fs).1 = Rejected e
      ↔ getReplyFolder forumId postId siteId userId = Rejected e)
     ∧ (getReplyFolder forumId postId siteId userId = Rejected e →
        deleteReplyStoredFiles FS getReplyFolder removeDir
          forumId postId siteId userId fs = (Rejected e, fs))).
Proof.
  unfold deleteNewDiscussionStoredFiles, deleteReplyStoredFiles.
  split.
  - destruct (getNewDiscussionFolder _ _ _) as [path|e0].
    + rewrite removeDirIgnoringErrors_resolves. simpl. by repeat split.
    + simpl. repeat split; by intros [= ->].
  - destruct (getReplyFolder _ _ _ _) as [path|e0].
    + rewrite removeDirIgnoringErrors_resolves. simpl. by repeat split.
    + simpl. repeat split; by intros [= ->].
Qed.

(** X17: storing, listing and deleting the files of a reply address one
    folder, the one [getReplyFolder] names for the forum, the post, the
    site and the user; and the conversion of a draft with offline
    attachments lists that same folder, taking the post replied to and the
    user from the draft. *)
Theorem reply_operations_share_folder s (o : OfflineReply.t) files siteId fs path :
  getReplyFolder (OfflineReply.forumid o) (OfflineReply.postid o) siteId
    (Some (OfflineReply.userid o)) = Resolved path →
  storeReplyFiles result getReplyFolder storeFilesToUpload
    (OfflineReply.forumid o) (OfflineReply.postid o) files siteId
    (Some (OfflineReply.userid o))
  = storeFilesToUpload path files
  ∧ getReplyStoredFiles getReplyFolder getStoredFiles
      (OfflineReply.forumid o) (OfflineReply.postid o) siteId
      (Some (OfflineReply.userid o))
    = getStoredFiles path
  ∧ deleteReplyStoredFiles FS getReplyFolder removeDir
      (OfflineReply.forumid o) (OfflineReply.postid o) siteId
      (Some (OfflineReply.userid o)) fs
    = (Resolved (), (removeDir path fs).2)
  ∧ (hasOfflineAttachments o = true →
     match getStoredFiles path with
     | Resolved local =>
         ∃ post, convertOfflineReplyToOnline getReplyFolder getStoredFiles
                   getProfile s o siteId = Resolved post
                 ∧ Reply.attachments post = onlineAttachments o ++ local
     | Rejected e =>
         convertOfflineReplyToOnline getReplyFolder getStoredFiles
           getProfile s o siteId = Rejected e
     end).
Proof.
  intros Hpath.
  unfold storeReplyFiles, deleteReplyStoredFiles.
  assert (getReplyStoredFiles getReplyFolder getStoredFiles
            (OfflineReply.forumid o) (OfflineReply.postid o) siteId
            (Some (OfflineReply.userid o)) = getStoredFiles path) as Hlist.
  { unfold getReplyStoredFiles. by rewrite Hpath. }
  rewrite Hpath. cbv beta iota. rewrite removeDirIgnoringErrors_resolves.
  repeat split; [exact Hlist|].
  intros Hoff.
  pose proof (convert_outcome getReplyFolder getStoredFiles getProfile s o siteId) as H.
  rewrite Hoff, Hlist in H.
  destruct (getStoredFiles path) as [local|e]; [|exact H].
  destruct H as (post & Hc & Ha & _). eauto.
Qed.

(** X18: storing and listing the files of a new discussion address one
    folder too, and so does deleting them. *)
Theorem new_discussion_operations_share_folder forumId timecreated files siteId fs path :
  getNewDiscussionFolder forumId timecreated siteId = Resolved path →
  storeNewDiscussionFiles result getNewDiscussionFolder storeFilesToUpload
    forumId timecreated files siteId
  = storeFilesToUpload path files
  ∧ getNewDiscussionStoredFiles getNewDiscussionFolder getStoredFiles
      forumId timecreated siteId
    = getStoredFiles path
  ∧ deleteNewDiscussionStoredFiles FS getNewDiscussionFolder removeDir
      forumId timecreated siteId fs
    = (Resolved (), (removeDir path fs).2).
Proof.
  intros Hpath.
  unfold storeNewDiscussionFiles, getNewDiscussionStoredFiles,
    deleteNewDiscussionStoredFiles.
  rewrite Hpath. cbv beta iota. by rewrite removeDirIgnoringErrors_resolves.
Qed.

(** X19: a failure to name the folder is the outcome of listing and of
    storing, for a new discussion and for a reply: the uploader is not
    asked. *)
Theorem folder_failure_propagates forumId timecreated postId files siteId userId e e' :
  getNewDiscussionFolder forumId timecreated siteId = Rejected e →
  getReplyFolder forumId postId siteId userId = Rejected e' →
  getNewDiscussionStoredFiles getNewDiscussionFolder getStoredFiles
    forumId timecreated siteId = Rejected e
  ∧ storeNewDiscussionFiles result getNewDiscussionFolder storeFilesToUpload
      forumId timecreated files siteId = Rejected e
  ∧ getReplyStoredFiles getReplyFolder getStoredFiles
      forumId postId siteId userId = Rejected e'
  ∧ storeReplyFiles result getReplyFolder storeFilesToUpload
      forumId postId files siteId userId = Rejected e'.
Proof.
  intros Hn Hr.
  unfold getNewDiscussionStoredFiles, storeNewDiscussionFiles,
    getReplyStoredFiles, storeReplyFiles.
  by rewrite Hn, Hr.
Qed.
End FoldersMore.

Lemma delete_rejects_iff_witness :
  deleteReplyStoredFiles MemStore.t
    (λ _ _ _ _, Rejected (OtherError "site not found")) MemStore.removeDir
    3 42 (Some "gone") None Sample.store1
  = (Rejected (OtherError "site not found"), Sample.store1).
Proof.
  apply (delete_rejects_iff MemStore.t MemStore.getNewDiscussionFolder
           (λ _ _ _ _, Rejected (OtherError "site not found"))
           MemStore.removeDir 3 1500000000 42 (Some "gone") None Sample.store1
           (OtherError "site not found")).
  reflexivity.
Defined.

Lemma reply_operations_share_folder_witness :
  ∃ post,
    convertOfflineReplyToOnline MemStore.getReplyFolder Sample.getStoredFiles
      Sample.getProfile AttachmentsFirst Sample.draft None = Resolved post
    ∧ Reply.attachments post
      = onlineAttachments Sample.draft ++ [Sample.local0].
Proof.
  refine (proj2 (proj2 (proj2
            (reply_operations_share_folder MemStore.t nat
               MemStore.getReplyFolder Sample.getStoredFiles
               (λ _ files, Resolved (length files)) MemStore.removeDir
               Sample.getProfile AttachmentsFirst Sample.draft [Sample.local0]
               None Sample.store1 "offline/current/forum/3/reply_42_7" _))) _).
  - vm_compute. reflexivity.
  - reflexivity.
Defined.

Lemma new_discussion_operations_share_folder_witness :
  getNewDiscussionStoredFiles MemStore.getNewDiscussionFolder
    Sample.getStoredFiles 3 1500000000 None
  = Sample.getStoredFiles Sample.newDiscussionPath.
Proof.
  refine (proj1 (proj2
            (new_discussion_operations_share_folder MemStore.t nat
               MemStore.getNewDiscussionFolder Sample.getStoredFiles
               (λ _ files, Resolved (length files)) MemStore.removeDir
               3 1500000000 [Sample.local0] None Sample.store1
               Sample.newDiscussionPath _))).
  vm_compute. reflexivity.
Defined.

Lemma folder_failure_propagates_witness :
  storeReplyFiles nat (λ _ _ _ _, Rejected (OtherError "site not found"))
    (λ _ files, Resolved (length files)) 3 42 [Sample.local0] (Some "gone") None
  = Rejected (OtherError "site not found").
Proof.
  refine (proj2 (proj2 (proj2
            (folder_failure_propagates nat
               (λ _ _ _, Rejected Null)
               (λ _ _ _ _, Rejected (OtherError "site not found"))
               Sample.getStoredFiles (λ _ files, Resolved (length files))
               3 1500000000 42 [Sample.local0] (Some "gone") None
               Null (OtherError "site not found") _ _))));
    reflexivity.
Defined.
